(** * Nonlinear solvers: Newton-Raphson, bisection and their composition

    A shallow embedding of [nonlinear_solvers/solvers.py].

    Scalars are IEEE 754 binary64 numbers, Rocq's primitive [float]: the
    values of Python's [float] and of numpy's [float64].  Exceptions are an
    explicit [result] type.  The two [while] loops are defined by
    well-founded recursion on the number of iterations the cap still allows,
    so each solver is a total function. *)

From Stdlib Require Import ZArith Lia Bool String Floats.
From Equations Require Import Equations.

Local Open Scope Z_scope.

(** ** Exceptions *)

(** The exceptions the module can let escape: its own [ConvergenceError],
    the [ValueError] of [bisection] with its message, and the
    [ZeroDivisionError] Python raises when a [float] is divided by zero. *)
Inductive exn : Type :=
| ConvergenceError
| ValueError (msg : string)
| ZeroDivisionError.

Inductive result (A : Type) : Type :=
| Ok (a : A)
| Raise (e : exn).

Arguments Ok {A} a.
Arguments Raise {A} e.

Definition bind {A B : Type} (r : result A) (k : A -> result B) : result B :=
  match r with
  | Ok a => k a
  | Raise e => Raise e
  end.

Notation "x <- r ;; k" := (bind r (fun x => k))
  (at level 61, r at next level, right associativity).

(** The test [iteration > max_its] of lines 41 and 92, read as an inequality
    of integers; closes the goals that are arithmetic on the counter. *)
Ltac counter_cap :=
  repeat match goal with
         | E : (_ >? _) = false |- _ =>
             rewrite Z.gtb_ltb in E; apply Z.ltb_ge in E
         | E : (_ >? _) = true |- _ =>
             rewrite Z.gtb_ltb in E; apply Z.ltb_lt in E
         end;
  lia.

(** Matching on a value while keeping the equation that names it, for the
    termination proofs of the loops. *)
Definition inspect {A : Type} (a : A) : {b : A | a = b} := exist _ a eq_refl.

(** ** Scalars *)

(** [a > b] on floats; false as soon as one side is a NaN. *)
Definition gtb (a b : float) : bool := (b <? a)%float.

Notation "a >? b" := (gtb a b) (at level 70, no associativity) : float_scope.

(** The operator [/] of line 39 is dispatched on the values [f] and [df]
    return.  On Python [float]s a zero divisor raises [ZeroDivisionError];
    on numpy [float64]s the quotient is the IEEE one (an infinity or a
    NaN). *)
Inductive scalar_kind : Type :=
| python_float
| numpy_float64.

Definition truediv (k : scalar_kind) (a b : float) : result float :=
  match k with
  | python_float =>
      if (b =? 0)%float then Raise ZeroDivisionError else Ok (a / b)%float
  | numpy_float64 => Ok (a / b)%float
  end.

(** ** Newton-Raphson *)

Section Newton.

Variable kind : scalar_kind.
Variables f df : float -> float.
Variable eps : float.
Variable max_its : Z.

(** Lines 39 to 42: the body of the loop, from the state [(x_0, iteration)]
    to the next one. *)
Definition newton_body (x_0 : float) (iteration : Z) : result (float * Z) :=
  q <- truediv kind (f x_0) (df x_0) ;;
  let x_0 := (x_0 - q)%float in
  let iteration := iteration + 1 in
  if iteration >? max_its then Raise ConvergenceError
  else Ok (x_0, iteration).

(** Lines 38 to 43: the loop.  [Z.to_nat (max_its - iteration)] bounds the
    passes that remain. *)
Equations? newton_while (x_0 : float) (iteration : Z) : result float
  by wf (Z.to_nat (max_its - iteration)) lt :=
  newton_while x_0 iteration with (abs (f x_0) >? eps)%float := {
    | false => Ok x_0
    | true with inspect (newton_body x_0 iteration) := {
        | exist _ (Raise e) _ => Raise e
        | exist _ (Ok (x', i')) Hbody => newton_while x' i' } }.
Proof.
  unfold newton_body, bind in Hbody.
  destruct (truediv kind (f x_0) (df x_0)) as [q|e]; [|discriminate].
  destruct (iteration + 1 >? max_its) eqn:E; [discriminate|].
  injection Hbody as _ <-. counter_cap.
Qed.

End Newton.

(** Lines 12 and 37 to 43. *)
Definition newton_raphson (kind : scalar_kind) (f df : float -> float)
  (x_0 eps : float) (max_its : Z) : result float :=
  let iteration := 0 in
  newton_while kind f df eps max_its x_0 iteration.

(** ** Bisection *)

Section Bisection.

Variable f : float -> float.
Variable eps : float.
Variable max_its : Z.

(** Lines 75 to 93: the body of the loop.  The divisor of line 75 is the
    integer [2], so that division never raises. *)
Definition bisection_body (x_0 x_1 x_mid : float) (iteration : Z)
  : result (float * float * float * Z) :=
  let x_mid := ((x_0 + x_1) / 2)%float in
  let f_xmid := f x_mid in
  let f_x0 := f x_0 in
  let f_x1 := f x_1 in
  _ <- (if (f_x0 >? 0)%float && (f_x1 >? 0)%float then
          Raise (ValueError "f(x) positive for both endpoints.")
        else if (f_x0 <? 0)%float && (f_x1 <? 0)%float then
          Raise (ValueError "f(x) negative for both endpoints.")
        else Ok tt) ;;
  let '(x_0, x_1) :=
    if (f_xmid <? 0)%float && (f_x0 <? 0)%float then (x_mid, x_1)
    else if (f_xmid >? 0)%float && (f_x0 >? 0)%float then (x_mid, x_1)
    else if (f_xmid >? 0)%float && (f_x1 >? 0)%float then (x_0, x_mid)
    else if (f_xmid <? 0)%float && (f_x1 <? 0)%float then (x_0, x_mid)
    else (x_0, x_1) in
  let iteration := iteration + 1 in
  if iteration >? max_its then Raise ConvergenceError
  else Ok (x_0, x_1, x_mid, iteration).

(** Lines 74 to 94: the loop. *)
Equations? bisection_while (x_0 x_1 x_mid : float) (iteration : Z)
  : result float by wf (Z.to_nat (max_its - iteration)) lt :=
  bisection_while x_0 x_1 x_mid iteration
    with (abs (f x_mid) >? eps)%float := {
    | false => Ok x_mid
    | true with inspect (bisection_body x_0 x_1 x_mid iteration) := {
        | exist _ (Raise e) _ => Raise e
        | exist _ (Ok (a, b, m, i')) Hbody => bisection_while a b m i' } }.
Proof.
  unfold bisection_body, bind in Hbody.
  repeat match type of Hbody with
         | context [if ?c then _ else _] => destruct c eqn:?
         end; try discriminate;
    injection Hbody as _ _ _ <-; counter_cap.
Qed.

End Bisection.

(** Lines 46 and 72 to 94. *)
Definition bisection (f : float -> float) (x_0 x_1 eps : float) (max_its : Z)
  : result float :=
  let iteration := 0 in
  let x_mid := ((x_0 + x_1) / 2)%float in
  bisection_while f eps max_its x_0 x_1 x_mid iteration.

(** ** The composite solver *)

(** Lines 129 to 133: [except ConvergenceError] handles that exception and
    no other. *)
Definition solve (kind : scalar_kind) (f df : float -> float)
  (x_0 x_1 eps : float) (max_its_n max_its_b : Z) : result float :=
  match newton_raphson kind f df x_0 eps max_its_n with
  | Ok x => Ok x
  | Raise ConvergenceError => bisection f x_0 x_1 eps max_its_b
  | Raise e => Raise e
  end.

(** ** The iterates of Newton's method *)

(** The update [x <- x - f(x)/df(x)] applied [n] times from [x], with the
    IEEE quotient: the sequence the loop follows as long as no division
    raises. *)
Fixpoint newton_seq (f df : float -> float) (n : nat) (x : float) : float :=
  match n with
  | O => x
  | S n' => newton_seq f df n' (x - f x / df x)%float
  end.

(** The loop guard holds at the first [k] iterates from [x]. *)
Definition guarded (f df : float -> float) (eps : float) (k : nat) (x : float)
  : Prop :=
  forall j, (j < k)%nat -> (abs (f (newton_seq f df j x)) >? eps)%float = true.

(** The divisions of the first [k] updates from [x] raise nothing. *)
Definition divisible (kind : scalar_kind) (f df : float -> float) (k : nat)
  (x : float) : Prop :=
  forall j, (j < k)%nat ->
    truediv kind (f (newton_seq f df j x)) (df (newton_seq f df j x))
    = Ok (f (newton_seq f df j x) / df (newton_seq f df j x))%float.

(** ** The brackets bisection goes through *)

(** [f] is negative at one end and positive at the other. *)
Definition opposite_signs (f : float -> float) (x_0 x_1 : float) : bool :=
  ((f x_0 <? 0)%float && (f x_1 >? 0)%float)
  || ((f x_0 >? 0)%float && (f x_1 <? 0)%float).

(** The loop states [(x_0, x_1, x_mid, iteration)] at the start of a pass of
    [bisection f x_0 x_1 eps max_its]: the state the loop is entered with,
    and each state a completed pass leaves when the guard holds again. *)
Inductive bisection_pass (f : float -> float) (eps : float) (max_its : Z)
  (x_0 x_1 : float) : float * float * float * Z -> Prop :=
| pass_first :
    (abs (f ((x_0 + x_1) / 2)) >? eps)%float = true ->
    bisection_pass f eps max_its x_0 x_1 (x_0, x_1, ((x_0 + x_1) / 2)%float, 0)
| pass_next a b m i a' b' m' i' :
    bisection_pass f eps max_its x_0 x_1 (a, b, m, i) ->
    bisection_body f max_its a b m i = Ok (a', b', m', i') ->
    (abs (f m') >? eps)%float = true ->
    bisection_pass f eps max_its x_0 x_1 (a', b', m', i').

(** How a call [bisection f x_0 x_1 eps max_its] comes to its outcome: the
    guard is false at the first midpoint; or a pass raises; or a pass
    completes and the guard is false at the midpoint it computed. *)
Inductive bisection_ends (f : float -> float) (eps : float) (max_its : Z)
  (x_0 x_1 : float) : result float -> Prop :=
| ends_at_once :
    (abs (f ((x_0 + x_1) / 2)) >? eps)%float = false ->
    bisection_ends f eps max_its x_0 x_1 (Ok ((x_0 + x_1) / 2)%float)
| ends_raising a b m i e :
    bisection_pass f eps max_its x_0 x_1 (a, b, m, i) ->
    bisection_body f max_its a b m i = Raise e ->
    bisection_ends f eps max_its x_0 x_1 (Raise e)
| ends_returning a b m i a' b' m' i' :
    bisection_pass f eps max_its x_0 x_1 (a, b, m, i) ->
    bisection_body f max_its a b m i = Ok (a', b', m', i') ->
    (abs (f m') >? eps)%float = false ->
    bisection_ends f eps max_its x_0 x_1 (Ok m').

(** ** Sample problems *)

(** [f(x) = x^2 - 2] and its derivative, the running example of the
    module's tests. *)
Definition sq_minus_2 (x : float) : float := (x * x - 2)%float.
Definition two_x (x : float) : float := (2 * x)%float.

(** [f(x) = x^2 + 1], positive everywhere. *)
Definition sq_plus_1 (x : float) : float := (x * x + 1)%float.

(** [f(x) = x] and its derivative. *)
Definition identity (x : float) : float := x.
Definition const_1 (x : float) : float := 1%float.

(** [df(x) = 0], a derivative that vanishes everywhere. *)
Definition const_0 (x : float) : float := 0%float.

(** [f(x) = -x^2 - 1], negative everywhere. *)
Definition neg_sq_minus_1 (x : float) : float := (- (x * x) - 1)%float.

(** [f(x) = x (2 - x)], with roots at [0] and [2]. *)
Definition x_times_2_minus_x (x : float) : float := (x * (2 - x))%float.

(** A function whose value is never a number. *)
Definition const_nan (x : float) : float := nan.

(** * Facts about the comparisons of binary64 numbers *)

Section FloatOrder.

Lemma SFcompare_swap (a b : spec_float) :
  SFcompare b a = option_map CompOpp (SFcompare a b).
Proof.
  destruct a as [sa|sa| |sa ma ea], b as [sb|sb| |sb mb eb]; simpl;
    try reflexivity;
    try (destruct sa; reflexivity);
    try (destruct sb; reflexivity);
    try (destruct sa, sb; reflexivity).
  destruct sa, sb; simpl; try reflexivity;
    rewrite (Z.compare_antisym ea eb);
    destruct (ea ?= eb)%Z; simpl; try reflexivity;
    change (Pos.compare_cont Eq mb ma) with (Pos.compare mb ma);
    change (Pos.compare_cont Eq ma mb) with (Pos.compare ma mb);
    rewrite (Pos.compare_antisym ma mb);
    destruct (ma ?= mb)%positive; reflexivity.
Qed.

(** [a <= b] excludes [a > b]. *)
Lemma leb_not_gtb (a b : float) :
  (a <=? b)%float = true -> (a >? b)%float = false.
Proof.
  unfold gtb. rewrite leb_spec, ltb_spec. unfold SFleb, SFltb.
  rewrite (SFcompare_swap (Prim2SF a) (Prim2SF b)).
  destruct (SFcompare (Prim2SF a) (Prim2SF b)) as [[]|];
    simpl; congruence.
Qed.

(** [a < b] excludes [a > b]. *)
Lemma ltb_not_gtb (a b : float) :
  (a <? b)%float = true -> (a >? b)%float = false.
Proof.
  unfold gtb. rewrite !ltb_spec. unfold SFltb.
  rewrite (SFcompare_swap (Prim2SF a) (Prim2SF b)).
  destruct (SFcompare (Prim2SF a) (Prim2SF b)) as [[]|];
    simpl; congruence.
Qed.

(** A zero of either sign is neither positive nor negative. *)
Lemma eqb_zero_signless (a : float) :
  (a =? 0)%float = true -> (a >? 0)%float = false /\ (a <? 0)%float = false.
Proof.
  unfold gtb. rewrite eqb_spec, !ltb_spec. unfold SFeqb, SFltb.
  rewrite (SFcompare_swap (Prim2SF a) (Prim2SF 0)).
  destruct (SFcompare (Prim2SF a) (Prim2SF 0)) as [[]|];
    simpl; try discriminate. split; reflexivity.
Qed.

Lemma eqb_zero_spec (b : float) :
  (b =? 0)%float = true -> exists s, Prim2SF b = S754_zero s.
Proof.
  rewrite eqb_spec. unfold SFeqb.
  change (Prim2SF 0) with (S754_zero false).
  destruct (Prim2SF b) as [s|s| |s m e]; simpl; try discriminate.
  - intros _. exists s. reflexivity.
  - destruct s; discriminate.
  - destruct s; discriminate.
Qed.

(** The IEEE quotient by a zero is an infinity or a NaN. *)
Lemma div_by_zero_spec (a b : float) :
  (b =? 0)%float = true ->
  Prim2SF (a / b) = S754_nan \/ exists s, Prim2SF (a / b) = S754_infinity s.
Proof.
  intros Hb. destruct (eqb_zero_spec b Hb) as [s Hs].
  rewrite div_spec, Hs. unfold SF64div.
  destruct (Prim2SF a) as [sa|sa| |sa ma ea]; simpl; eauto.
Qed.

End FloatOrder.

(** * The loops, one pass at a time *)

Section NewtonLoop.

Variable kind : scalar_kind.
Variables f df : float -> float.
Variable eps : float.
Variable max_its : Z.

Lemma newton_while_pass x_0 iteration :
  newton_while kind f df eps max_its x_0 iteration =
  if (abs (f x_0) >? eps)%float then
    match newton_body kind f df max_its x_0 iteration with
    | Ok (x', i') => newton_while kind f df eps max_its x' i'
    | Raise e => Raise e
    end
  else Ok x_0.
Proof.
  funelim (newton_while kind f df eps max_its x_0 iteration);
    match goal with H : (_ >? _)%float = _ |- _ => rewrite H end;
    try match goal with H : newton_body _ _ _ _ _ _ = _ |- _ => rewrite H end;
    reflexivity.
Qed.

Lemma truediv_ok a b q : truediv kind a b = Ok q -> q = (a / b)%float.
Proof.
  unfold truediv. destruct kind; [destruct (b =? 0)%float; [discriminate|]|];
    intros H; injection H as <-; reflexivity.
Qed.

Lemma newton_body_defined x_0 iteration q :
  truediv kind (f x_0) (df x_0) = Ok q ->
  newton_body kind f df max_its x_0 iteration =
  if iteration + 1 >? max_its then Raise ConvergenceError
  else Ok ((x_0 - q)%float, iteration + 1).
Proof. intros H. unfold newton_body. rewrite H. reflexivity. Qed.

Lemma newton_body_raises x_0 iteration e :
  truediv kind (f x_0) (df x_0) = Raise e ->
  newton_body kind f df max_its x_0 iteration = Raise e.
Proof. intros H. unfold newton_body. rewrite H. reflexivity. Qed.

Lemma newton_seq_S n x :
  newton_seq f df (S n) x =
  (newton_seq f df n x
   - f (newton_seq f df n x) / df (newton_seq f df n x))%float.
Proof.
  revert x. induction n as [|n IH]; intros x; [reflexivity|].
  change (newton_seq f df (S (S n)) x)
    with (newton_seq f df (S n) (x - f x / df x)%float).
  rewrite IH. reflexivity.
Qed.

(** [k] passes in a row, while the cap allows them. *)
Lemma newton_while_passes k : forall x iteration,
  ((0 < k)%nat -> iteration + Z.of_nat k <= max_its) ->
  guarded f df eps k x -> divisible kind f df k x ->
  newton_while kind f df eps max_its x iteration =
  newton_while kind f df eps max_its (newton_seq f df k x)
    (iteration + Z.of_nat k).
Proof.
  induction k as [|k IH]; intros x iteration Hcap Hg Hd.
  - simpl. rewrite Z.add_0_r. reflexivity.
  - rewrite newton_while_pass.
    pose proof (Hg 0%nat ltac:(lia)) as G0. simpl in G0. rewrite G0.
    pose proof (Hd 0%nat ltac:(lia)) as D0. simpl in D0.
    rewrite (newton_body_defined _ _ _ D0).
    destruct (iteration + 1 >? max_its) eqn:E.
    + counter_cap.
    + simpl newton_seq. rewrite IH.
      * f_equal. lia.
      * lia.
      * intros j Hj. apply (Hg (S j)). lia.
      * intros j Hj. apply (Hd (S j)). lia.
Qed.

(** The pass that takes the counter over the cap raises, whatever the new
    iterate is. *)
Lemma newton_while_cap x iteration :
  max_its < iteration + 1 ->
  (abs (f x) >? eps)%float = true ->
  truediv kind (f x) (df x) = Ok (f x / df x)%float ->
  newton_while kind f df eps max_its x iteration = Raise ConvergenceError.
Proof.
  intros Hcap Hg Hd. rewrite newton_while_pass, Hg.
  rewrite (newton_body_defined _ _ _ Hd).
  destruct (iteration + 1 >? max_its) eqn:E; [reflexivity|]. counter_cap.
Qed.

Lemma newton_raphson_exhausts x_0 :
  guarded f df eps (S (Z.to_nat max_its)) x_0 ->
  divisible kind f df (S (Z.to_nat max_its)) x_0 ->
  newton_raphson kind f df x_0 eps max_its = Raise ConvergenceError.
Proof.
  intros Hg Hd. unfold newton_raphson.
  rewrite (newton_while_passes (Z.to_nat max_its)).
  - apply newton_while_cap.
    + lia.
    + apply Hg. lia.
    + apply Hd. lia.
  - lia.
  - intros j Hj. apply Hg. lia.
  - intros j Hj. apply Hd. lia.
Qed.


(** What a returned value is: an iterate at which the guard is false, reached
    through iterates at which it held. *)
Lemma newton_while_returns n : forall x iteration r,
  (Z.to_nat (max_its - iteration) <= n)%nat ->
  newton_while kind f df eps max_its x iteration = Ok r ->
  exists k, (k <= n)%nat /\ r = newton_seq f df k x /\ guarded f df eps k x
            /\ (abs (f r) >? eps)%float = false.
Proof.
  induction n as [|n IH]; intros x iteration r Hn; rewrite newton_while_pass;
    destruct (abs (f x) >? eps)%float eqn:G.
  - unfold newton_body, bind.
    destruct (truediv kind (f x) (df x)); [|discriminate].
    destruct (iteration + 1 >? max_its) eqn:E; [discriminate|]. counter_cap.
  - intros H. injection H as <-. exists 0%nat.
    repeat split; try assumption; try lia. intros j Hj. lia.
  - unfold newton_body, bind.
    destruct (truediv kind (f x) (df x)) as [q|] eqn:D; [|discriminate].
    destruct (iteration + 1 >? max_its) eqn:E; [discriminate|].
    rewrite Z.gtb_ltb in E. apply Z.ltb_ge in E.
    apply truediv_ok in D. subst q.
    intros H. apply IH in H; [|lia].
    destruct H as (k & Hk & Hr & Hg & Hstop).
    exists (S k). repeat split; try assumption; try lia.
    intros [|j] Hj; [exact G|]. apply Hg. lia.
  - intros H. injection H as <-. exists 0%nat.
    repeat split; try assumption; try lia. intros j Hj. lia.
Qed.


(** The loop never raises the exception of [bisection]. *)
Lemma newton_while_no_value_error n : forall x iteration msg,
  (Z.to_nat (max_its - iteration) <= n)%nat ->
  newton_while kind f df eps max_its x iteration <> Raise (ValueError msg).
Proof.
  induction n as [|n IH]; intros x iteration msg Hn; rewrite newton_while_pass;
    destruct (abs (f x) >? eps)%float; try discriminate;
    unfold newton_body, bind, truediv;
    destruct kind; try destruct (df x =? 0)%float; try discriminate;
    destruct (iteration + 1 >? max_its) eqn:E; try discriminate;
    rewrite Z.gtb_ltb in E; apply Z.ltb_ge in E; try lia;
    apply IH; lia.
Qed.

End NewtonLoop.

Section BisectionLoop.

Variable f : float -> float.
Variable eps : float.
Variable max_its : Z.

Lemma bisection_while_pass x_0 x_1 x_mid iteration :
  bisection_while f eps max_its x_0 x_1 x_mid iteration =
  if (abs (f x_mid) >? eps)%float then
    match bisection_body f max_its x_0 x_1 x_mid iteration with
    | Ok (a, b, m, i') => bisection_while f eps max_its a b m i'
    | Raise e => Raise e
    end
  else Ok x_mid.
Proof.
  funelim (bisection_while f eps max_its x_0 x_1 x_mid iteration);
    match goal with H : (_ >? _)%float = _ |- _ => rewrite H end;
    try match goal with H : bisection_body _ _ _ _ _ _ = _ |- _ => rewrite H end;
    reflexivity.
Qed.

Lemma bisection_body_positive x_0 x_1 x_mid iteration :
  (f x_0 >? 0)%float = true -> (f x_1 >? 0)%float = true ->
  bisection_body f max_its x_0 x_1 x_mid iteration
  = Raise (ValueError "f(x) positive for both endpoints.").
Proof.
  intros H0 H1. unfold bisection_body. rewrite H0, H1. reflexivity.
Qed.

Lemma bisection_body_negative x_0 x_1 x_mid iteration :
  (f x_0 <? 0)%float = true -> (f x_1 <? 0)%float = true ->
  bisection_body f max_its x_0 x_1 x_mid iteration
  = Raise (ValueError "f(x) negative for both endpoints.").
Proof.
  intros H0 H1. unfold bisection_body.
  rewrite (ltb_not_gtb _ _ H0), H0, H1. reflexivity.
Qed.

(** A pass that completes recomputed [x_mid] and counted itself. *)
Lemma bisection_body_completes x_0 x_1 x_mid iteration a b m i' :
  bisection_body f max_its x_0 x_1 x_mid iteration = Ok (a, b, m, i') ->
  m = ((x_0 + x_1) / 2)%float /\ i' = iteration + 1 /\ i' <= max_its.
Proof.
  unfold bisection_body, bind.
  repeat match goal with
         | |- context [if ?c then _ else _] => destruct c eqn:?
         end; try discriminate;
    intros H; injection H as _ _ <- <-; repeat split; counter_cap.
Qed.

(** A pass that completes leaves a bracket of opposite signs as one. *)
Lemma bisection_body_keeps_signs x_0 x_1 x_mid iteration a b m i' :
  opposite_signs f x_0 x_1 = true ->
  bisection_body f max_its x_0 x_1 x_mid iteration = Ok (a, b, m, i') ->
  opposite_signs f a b = true.
Proof.
  unfold opposite_signs, bisection_body, bind. intros Hopp.
  pose proof (ltb_not_gtb (f x_0) 0) as A0.
  pose proof (ltb_not_gtb (f x_1) 0) as A1.
  pose proof (ltb_not_gtb (f ((x_0 + x_1) / 2)) 0) as Am.
  revert Hopp A0 A1 Am.
  destruct (f x_0 <? 0)%float eqn:N0, (f x_0 >? 0)%float eqn:P0,
           (f x_1 <? 0)%float eqn:N1, (f x_1 >? 0)%float eqn:P1;
    simpl; intros Hopp A0 A1 Am; try discriminate;
    try (specialize (A0 eq_refl); discriminate);
    try (specialize (A1 eq_refl); discriminate);
    revert Am;
    destruct (f ((x_0 + x_1) / 2) <? 0)%float eqn:Nm,
             (f ((x_0 + x_1) / 2) >? 0)%float eqn:Pm; simpl; intros Am;
    try (specialize (Am eq_refl); discriminate);
    destruct (iteration + 1 >? max_its); try discriminate;
    intros H; injection H as <- <- _ _;
    rewrite ?N0, ?P0, ?N1, ?P1, ?Nm, ?Pm; reflexivity.
Qed.

(** What [bisection]'s loop returns fails the guard. *)
Lemma bisection_while_returns n : forall x_0 x_1 x_mid iteration r,
  (Z.to_nat (max_its - iteration) <= n)%nat ->
  bisection_while f eps max_its x_0 x_1 x_mid iteration = Ok r ->
  (abs (f r) >? eps)%float = false.
Proof.
  induction n as [|n IH]; intros x_0 x_1 x_mid iteration r Hn;
    rewrite bisection_while_pass;
    destruct (abs (f x_mid) >? eps)%float eqn:G;
    try (intros H; injection H as <-; assumption);
    destruct (bisection_body f max_its x_0 x_1 x_mid iteration)
      as [[[[a b] m] i']|e] eqn:B; try discriminate;
    apply bisection_body_completes in B; destruct B as (_ & -> & Hi).
  - lia.
  - apply IH. lia.
Qed.

End BisectionLoop.

(** * Newton-Raphson: when it fails and what it returns *)





(** What [newton_raphson] returns is an iterate of the update from [x_0],
    the first at which the guard [|f(x)| > eps] is false; the guard is first
    tested at [x_0] itself. *)
Lemma newton_raphson_returns kind f df x_0 eps max_its r :
  newton_raphson kind f df x_0 eps max_its = Ok r ->
  (abs (f r) >? eps)%float = false
  /\ exists k, (k <= Z.to_nat max_its)%nat /\ r = newton_seq f df k x_0
               /\ guarded f df eps k x_0.
Proof.
  unfold newton_raphson. intros H.
  apply (newton_while_returns kind f df eps max_its (Z.to_nat max_its)) in H.
  - destruct H as (k & Hk & Hr & Hg & Hstop). split; [assumption|].
    exists k. auto.
  - rewrite Z.sub_0_r. lia.
Qed.

(** C5 at the boundary [|f(x)| = eps]: with [f(x) = x] and [eps = 1] the
    guard of line 38 is already false at [x_0 = 1], which is returned
    although [|f(1)| < 1] does not hold. *)
Theorem newton_raphson_returns_at_tolerance :
  newton_raphson python_float identity const_1 1 1 20 = Ok 1%float
  /\ (abs (identity 1) <? 1)%float = false
  /\ (abs (identity 1) =? 1)%float = true.
Proof. repeat split; vm_compute; reflexivity. Qed.

(** C8.  A pass of the loop at a point where [df] is zero divides all the
    same.  On Python floats the division's [ZeroDivisionError] leaves
    [newton_raphson] as it is, not as a [ConvergenceError]; on numpy floats
    the quotient, an infinity or a NaN, is subtracted from [x] and the loop
    goes on as after any other update. *)
Theorem newton_zero_derivative_unguarded f df eps max_its x iteration :
  (abs (f x) >? eps)%float = true ->
  (df x =? 0)%float = true ->
  newton_while python_float f df eps max_its x iteration
  = Raise ZeroDivisionError
  /\ newton_while numpy_float64 f df eps max_its x iteration
     = (if iteration + 1 >? max_its then Raise ConvergenceError
        else newton_while numpy_float64 f df eps max_its
               (x - f x / df x)%float (iteration + 1))
  /\ (Prim2SF (f x / df x) = S754_nan
      \/ exists s, Prim2SF (f x / df x) = S754_infinity s).
Proof.
  intros Hg Hz. split; [|split].
  - rewrite newton_while_pass, Hg.
    rewrite (newton_body_raises _ _ _ _ _ _ ZeroDivisionError); [reflexivity|].
    unfold truediv. rewrite Hz. reflexivity.
  - rewrite newton_while_pass, Hg.
    rewrite (newton_body_defined _ _ _ _ _ _ (f x / df x)%float);
      [|reflexivity].
    destruct (iteration + 1 >? max_its); reflexivity.
  - apply div_by_zero_spec. assumption.
Qed.

(** [f(x) = 1] with [df(x) = 0] from [x_0 = 0]: Python floats raise
    [ZeroDivisionError] at the first update; numpy floats move to
    [-infinity] and give up when the counter passes the cap. *)
Lemma newton_zero_derivative_unguarded_witness :
  ((abs (const_1 0) >? 0.5)%float = true /\ (const_0 0 =? 0)%float = true)
  /\ newton_raphson python_float const_1 const_0 0 0.5 20
     = Raise ZeroDivisionError
  /\ newton_raphson numpy_float64 const_1 const_0 0 0.5 20
     = newton_while numpy_float64 const_1 const_0 0.5 20 neg_infinity 1
  /\ newton_raphson numpy_float64 const_1 const_0 0 0.5 20
     = Raise ConvergenceError.
Proof.
  assert ((abs (const_1 0) >? 0.5)%float = true) as Hg by reflexivity.
  assert ((const_0 0 =? 0)%float = true) as Hz by reflexivity.
  destruct (newton_zero_derivative_unguarded
              const_1 const_0 0.5 20 0 0 Hg Hz) as (Hpy & Hnp & _).
  split; [split; assumption|]. split; [exact Hpy|]. split.
  - exact Hnp.
  - vm_compute. reflexivity.
Defined.



(** * Bisection *)



(** C3.  In a pass of the loop, two positive endpoint values raise
    [ValueError] with the message for positive endpoints, two negative ones
    raise it with the message for negative endpoints, both before anything
    else is done; when an endpoint value is a zero the pass raises no
    [ValueError]. *)
Theorem bisection_bracket_check f eps max_its x_0 x_1 x_mid iteration :
  (abs (f x_mid) >? eps)%float = true ->
  ((f x_0 >? 0)%float = true -> (f x_1 >? 0)%float = true ->
   bisection_while f eps max_its x_0 x_1 x_mid iteration
   = Raise (ValueError "f(x) positive for both endpoints."))
  /\ ((f x_0 <? 0)%float = true -> (f x_1 <? 0)%float = true ->
      bisection_while f eps max_its x_0 x_1 x_mid iteration
      = Raise (ValueError "f(x) negative for both endpoints."))
  /\ ((f x_0 =? 0)%float = true \/ (f x_1 =? 0)%float = true ->
      forall msg,
        bisection_body f max_its x_0 x_1 x_mid iteration
        <> Raise (ValueError msg)).
Proof.
  intros Hg. split; [|split].
  - intros H0 H1. rewrite bisection_while_pass, Hg.
    rewrite bisection_body_positive by assumption. reflexivity.
  - intros H0 H1. rewrite bisection_while_pass, Hg.
    rewrite bisection_body_negative by assumption. reflexivity.
  - intros Hz msg. unfold bisection_body, bind.
    assert ((f x_0 >? 0)%float && (f x_1 >? 0)%float = false
            /\ (f x_0 <? 0)%float && (f x_1 <? 0)%float = false) as [-> ->].
    { destruct Hz as [Hz|Hz]; destruct (eqb_zero_signless _ Hz) as [-> ->];
        rewrite ?andb_false_r; auto. }
    repeat match goal with
           | |- context [if ?c then _ else _] => destruct c
           end; discriminate.
Qed.

(** [x^2 + 1] over [[0, 2]] is refused as positive at both ends,
    [-x^2 - 1] as negative at both ends, and [f(x) = x], zero at the left
    end, passes the test and has its bracket narrowed to [[0, 1]]. *)
Lemma bisection_bracket_check_witness :
  (abs (sq_plus_1 1) >? 0.5)%float = true
  /\ bisection sq_plus_1 0 2 0.5 20
     = Raise (ValueError "f(x) positive for both endpoints.")
  /\ bisection neg_sq_minus_1 0 2 0.5 20
     = Raise (ValueError "f(x) negative for both endpoints.")
  /\ (forall msg, bisection_body identity 20 0 2 1 0 <> Raise (ValueError msg))
  /\ bisection_body identity 20 0 2 1 0 = Ok (0%float, 1%float, 1%float, 1).
Proof.
  split; [reflexivity|]. split; [|split; [|split]].
  - apply (bisection_bracket_check sq_plus_1 0.5 20 0 2 1 0); reflexivity.
  - apply (bisection_bracket_check neg_sq_minus_1 0.5 20 0 2 1 0); reflexivity.
  - apply (bisection_bracket_check identity 0.5 20 0 2 1 0);
      [reflexivity|left; reflexivity].
  - vm_compute. reflexivity.
Defined.

(** What [bisection] returns fails the guard [|f(x)| > eps]. *)
Lemma bisection_returns f x_0 x_1 eps max_its r :
  bisection f x_0 x_1 eps max_its = Ok r ->
  (abs (f r) >? eps)%float = false.
Proof.
  unfold bisection. apply (bisection_while_returns f eps max_its
                             (Z.to_nat (max_its - 0))). lia.
Qed.

(** C6 at the boundary [|f(mid)| = eps]: with [f(x) = x] over [[0, 2]] and
    [eps = 1] the guard of line 74 is already false at the first midpoint,
    [1], which is returned although [|f(1)| < 1] does not hold. *)
Theorem bisection_returns_at_tolerance :
  bisection identity 0 2 1 20 = Ok 1%float
  /\ (abs (identity 1) <? 1)%float = false
  /\ (abs (identity 1) =? 1)%float = true.
Proof. repeat split; vm_compute; reflexivity. Qed.

(** The states of [bisection_pass] are the ones the loop of the call goes
    through. *)
Lemma bisection_pass_guard f eps max_its x_0 x_1 a b m i :
  bisection_pass f eps max_its x_0 x_1 (a, b, m, i) ->
  (abs (f m) >? eps)%float = true.
Proof. intros H. inversion H; subst; assumption. Qed.

Lemma bisection_pass_loop f eps max_its x_0 x_1 st :
  bisection_pass f eps max_its x_0 x_1 st ->
  bisection f x_0 x_1 eps max_its
  = let '(a, b, m, i) := st in bisection_while f eps max_its a b m i.
Proof.
  induction 1 as [Hg|a b m i a' b' m' i' Hpass IH Hbody Hg].
  - reflexivity.
  - rewrite IH. rewrite bisection_while_pass.
    rewrite (bisection_pass_guard _ _ _ _ _ _ _ _ _ Hpass), Hbody.
    reflexivity.
Qed.

(** C7.  From a bracket at whose ends [f] has strictly opposite signs, the
    bracket has that property at the start of every pass of the loop; and a
    pass that starts with [f] positive at both ends, or negative at both,
    raises [ValueError] and changes nothing. *)
Theorem bisection_bracket_invariant f eps max_its x_0 x_1 :
  opposite_signs f x_0 x_1 = true ->
  (forall a b m i,
     bisection_pass f eps max_its x_0 x_1 (a, b, m, i) ->
     opposite_signs f a b = true
     /\ bisection f x_0 x_1 eps max_its = bisection_while f eps max_its a b m i)
  /\ (forall a b m i,
        (abs (f m) >? eps)%float = true ->
        (f a >? 0)%float && (f b >? 0)%float
        || (f a <? 0)%float && (f b <? 0)%float = true ->
        exists msg,
          bisection_while f eps max_its a b m i = Raise (ValueError msg)).
Proof.
  intros Hopp. split.
  - intros a b m i Hpass. split.
    + remember (a, b, m, i) as st eqn:Est. revert a b m i Est.
      induction Hpass as [Hg|a0 b0 m0 i0 a' b' m' i' Hpass IH Hbody Hg];
        intros a b m i Est; injection Est as <- <- <- <-.
      * assumption.
      * apply (bisection_body_keeps_signs f max_its a0 b0 m0 i0 a' b' m' i');
          [|assumption].
        apply (IH a0 b0 m0 i0). reflexivity.
    + apply (bisection_pass_loop f eps max_its x_0 x_1 (a, b, m, i) Hpass).
  - intros a b m i Hg Hsame. rewrite bisection_while_pass, Hg.
    apply orb_true_iff in Hsame.
    destruct Hsame as [H|H]; apply andb_true_iff in H; destruct H as [Ha Hb].
    + rewrite bisection_body_positive by assumption. eauto.
    + rewrite bisection_body_negative by assumption. eauto.
Qed.

(** [x^2 - 2] over [[0, 2]]: the second pass starts from the bracket
    [[1, 2]], still of opposite signs. *)
Lemma bisection_bracket_invariant_witness :
  opposite_signs sq_minus_2 0 2 = true
  /\ bisection_pass sq_minus_2 0x1p-17 20 0 2 (1%float, 2%float, 1%float, 1)
  /\ opposite_signs sq_minus_2 1 2 = true
  /\ bisection sq_minus_2 0 2 0x1p-17 20
     = bisection_while sq_minus_2 0x1p-17 20 1 2 1 1.
Proof.
  assert (opposite_signs sq_minus_2 0 2 = true) as Hopp by reflexivity.
  assert (bisection_pass sq_minus_2 0x1p-17 20 0 2 (1%float, 2%float, 1%float, 1))
    as Hpass.
  { apply (pass_next sq_minus_2 0x1p-17 20 0 2 0 2 1 0 1 2 1 1).
    - apply (pass_first sq_minus_2 0x1p-17 20 0 2). reflexivity.
    - vm_compute. reflexivity.
    - reflexivity. }
  split; [exact Hopp|]. split; [exact Hpass|].
  exact (proj1 (bisection_bracket_invariant sq_minus_2 0x1p-17 20 0 2 Hopp)
           1%float 2%float 1%float 1 Hpass).
Defined.

(** C9.  When the first midpoint already has [|f(mid)| <= eps], [bisection]
    returns it without entering the loop, so without looking at the signs
    of [f] at the endpoints. *)
Theorem bisection_converged_at_once f x_0 x_1 eps max_its :
  (abs (f ((x_0 + x_1) / 2)) <=? eps)%float = true ->
  bisection f x_0 x_1 eps max_its = Ok ((x_0 + x_1) / 2)%float.
Proof.
  intros Hle. unfold bisection. rewrite bisection_while_pass.
  rewrite (leb_not_gtb _ _ Hle). reflexivity.
Qed.

(** [x^2 + 1] is positive at [0] and at [2]; with [eps = 2] the midpoint [1]
    is accepted at once, while a smaller [eps] has the same bracket
    refused. *)
Lemma bisection_converged_at_once_witness :
  (abs (sq_plus_1 ((0 + 2) / 2)) <=? 2)%float = true
  /\ ((sq_plus_1 0 >? 0)%float = true /\ (sq_plus_1 2 >? 0)%float = true)
  /\ bisection sq_plus_1 0 2 2 20 = Ok ((0 + 2) / 2)%float
  /\ bisection sq_plus_1 0 2 0.5 20
     = Raise (ValueError "f(x) positive for both endpoints.").
Proof.
  split; [reflexivity|]. split; [split; reflexivity|]. split.
  - apply (bisection_converged_at_once sq_plus_1 0 2 2 20). reflexivity.
  - vm_compute. reflexivity.
Defined.

(** * The composite solver *)

(** [newton_raphson] never raises [ValueError]. *)
Lemma newton_raphson_no_value_error kind f df x_0 eps max_its msg :
  newton_raphson kind f df x_0 eps max_its <> Raise (ValueError msg).
Proof.
  unfold newton_raphson.
  apply (newton_while_no_value_error kind f df eps max_its
           (Z.to_nat (max_its - 0))). lia.
Qed.

(** C4.  [solve] returns what [newton_raphson] returns, whatever the
    bracket; when [newton_raphson] raises [ConvergenceError], and only then,
    its outcome is the one of [bisection] on the bracket, exceptions
    included; any other exception of the Newton stage is raised as it is.
    So a [ValueError] or a [ConvergenceError] out of [solve] is the one
    [bisection] raised after the Newton stage gave up. *)
Theorem solve_dispatch kind f df x_0 x_1 eps max_its_n max_its_b :
  (forall x,
     newton_raphson kind f df x_0 eps max_its_n = Ok x ->
     forall x_1' max_its_b',
       solve kind f df x_0 x_1' eps max_its_n max_its_b' = Ok x)
  /\ (newton_raphson kind f df x_0 eps max_its_n = Raise ConvergenceError ->
      solve kind f df x_0 x_1 eps max_its_n max_its_b
      = bisection f x_0 x_1 eps max_its_b)
  /\ (forall e,
        newton_raphson kind f df x_0 eps max_its_n = Raise e ->
        e <> ConvergenceError ->
        forall x_1' max_its_b',
          solve kind f df x_0 x_1' eps max_its_n max_its_b' = Raise e)
  /\ (forall e,
        solve kind f df x_0 x_1 eps max_its_n max_its_b = Raise e ->
        e = ConvergenceError \/ (exists msg, e = ValueError msg) ->
        newton_raphson kind f df x_0 eps max_its_n = Raise ConvergenceError
        /\ bisection f x_0 x_1 eps max_its_b = Raise e).
Proof.
  unfold solve. split; [|split; [|split]].
  - intros x H x_1' max_its_b'. rewrite H. reflexivity.
  - intros H. rewrite H. reflexivity.
  - intros e H He x_1' max_its_b'. rewrite H.
    destruct e; [contradiction|reflexivity|reflexivity].
  - intros e.
    destruct (newton_raphson kind f df x_0 eps max_its_n) as [x|[]] eqn:N.
    + discriminate.
    + intros H _. split; [reflexivity|assumption].
    + exfalso. exact (newton_raphson_no_value_error _ _ _ _ _ _ _ N).
    + intros H [He|[msg He]]; injection H as <-; discriminate.
Qed.

(** On [x^2 - 2] from [1]: with a cap of [0] updates the Newton stage gives
    up and [solve] is [bisection] over [[1, 2]]; with the default cap it
    converges, and the bracket [[1, 0]], which [bisection] refuses, is never
    looked at; and a zero derivative on Python floats goes through [solve]
    as the [ZeroDivisionError] it is. *)
Lemma solve_dispatch_witness :
  (newton_raphson python_float sq_minus_2 two_x 1 0x1p-17 0
   = Raise ConvergenceError
   /\ solve python_float sq_minus_2 two_x 1 2 0x1p-17 0 20
      = bisection sq_minus_2 1 2 0x1p-17 20
   /\ bisection sq_minus_2 1 2 0x1p-17 20 = Ok 0x1.6a0ap+0%float)
  /\ (newton_raphson python_float sq_minus_2 two_x 1 0x1p-17 20
      = Ok 0x1.6a0a0a0a0a0a1p+0%float
      /\ solve python_float sq_minus_2 two_x 1 0 0x1p-17 20 20
         = Ok 0x1.6a0a0a0a0a0a1p+0%float
      /\ bisection sq_minus_2 1 0 0x1p-17 20
         = Raise (ValueError "f(x) negative for both endpoints."))
  /\ (newton_raphson python_float const_1 const_0 0 0.5 20
      = Raise ZeroDivisionError
      /\ solve python_float const_1 const_0 0 2 0.5 20 20
         = Raise ZeroDivisionError).
Proof.
  assert (newton_raphson python_float sq_minus_2 two_x 1 0x1p-17 0
          = Raise ConvergenceError) as N0 by (vm_compute; reflexivity).
  assert (newton_raphson python_float sq_minus_2 two_x 1 0x1p-17 20
          = Ok 0x1.6a0a0a0a0a0a1p+0%float) as N1 by (vm_compute; reflexivity).
  assert (newton_raphson python_float const_1 const_0 0 0.5 20
          = Raise ZeroDivisionError) as N2 by (vm_compute; reflexivity).
  split; [|split].
  - split; [exact N0|]. split; [|vm_compute; reflexivity].
    exact (proj1 (proj2 (solve_dispatch python_float sq_minus_2 two_x
                           1 2 0x1p-17 0 20)) N0).
  - split; [exact N1|]. split; [|vm_compute; reflexivity].
    exact (proj1 (solve_dispatch python_float sq_minus_2 two_x
                    1 2 0x1p-17 20 20) _ N1 0%float 20).
  - split; [exact N2|].
    refine (proj1 (proj2 (proj2 (solve_dispatch python_float const_1 const_0
                                   0 2 0.5 20 20))) _ N2 _ 2%float 20).
    discriminate.
Defined.

(** * More on the comparisons: NaN and the failed guard *)

Section FloatUnordered.

Lemma SFcompare_refl (a : spec_float) :
  a <> S754_nan -> SFcompare a a = Some Eq.
Proof.
  destruct a as [s|s| |s m e]; simpl; intros H;
    try reflexivity; try congruence.
  - destruct s; reflexivity.
  - rewrite Z.compare_refl.
    change (Pos.compare_cont Eq m m) with (Pos.compare m m).
    rewrite Pos.compare_refl. destruct s; reflexivity.
Qed.

Lemma SFcompare_unordered (a b : spec_float) :
  SFcompare a b = None -> a = S754_nan \/ b = S754_nan.
Proof.
  destruct a as [sa|sa| |sa ma ea], b as [sb|sb| |sb mb eb]; simpl;
    intros H; try discriminate; auto.
Qed.

Lemma is_nan_spec (a : float) : is_nan a = true <-> Prim2SF a = S754_nan.
Proof.
  unfold is_nan. rewrite eqb_spec. unfold SFeqb. split.
  - intros H. destruct (Prim2SF a) eqn:E; try reflexivity;
      rewrite SFcompare_refl in H by discriminate; discriminate.
  - intros ->. reflexivity.
Qed.

Lemma is_nan_abs (a : float) : is_nan (abs a) = is_nan a.
Proof.
  apply eq_true_iff_eq. rewrite !is_nan_spec, abs_spec.
  destruct (Prim2SF a); simpl; split; congruence.
Qed.

(** A comparison with a NaN is false. *)
Lemma is_nan_not_gtb (a b : float) :
  is_nan a = true \/ is_nan b = true -> (a >? b)%float = false.
Proof.
  unfold gtb. rewrite ltb_spec, !is_nan_spec. unfold SFltb.
  intros [->| ->]; [destruct (Prim2SF b)|destruct (Prim2SF a)]; reflexivity.
Qed.

(** Where [a > b] is false, either [a <= b] or one of the two is a NaN. *)
Lemma not_gtb_cases (a b : float) :
  (a >? b)%float = false ->
  (a <=? b)%float = true \/ is_nan a = true \/ is_nan b = true.
Proof.
  unfold gtb. rewrite ltb_spec, leb_spec, !is_nan_spec. unfold SFltb, SFleb.
  rewrite (SFcompare_swap (Prim2SF a) (Prim2SF b)).
  destruct (SFcompare (Prim2SF a) (Prim2SF b)) as [[]|] eqn:E; simpl;
    intros H; try discriminate; auto.
  right. apply SFcompare_unordered. assumption.
Qed.

(** [a > b] excludes [a < b]. *)
Lemma gtb_not_ltb (a b : float) :
  (a >? b)%float = true -> (a <? b)%float = false.
Proof.
  intros H. destruct (a <? b)%float eqn:E; [|reflexivity].
  apply ltb_not_gtb in E. congruence.
Qed.

(** No absolute value is below a negative number. *)
Lemma abs_not_leb_negative (y eps : float) :
  (eps <? 0)%float = true -> (abs y <=? eps)%float = false.
Proof.
  rewrite ltb_spec, leb_spec, abs_spec. unfold SFltb, SFleb.
  change (Prim2SF 0) with (S754_zero false).
  destruct (Prim2SF eps) as [s|s| |s m e]; simpl; try discriminate;
    destruct s; try discriminate; intros _;
    destruct (Prim2SF y) as [sy|sy| |sy my ey]; reflexivity.
Qed.

End FloatUnordered.

(** * Newton-Raphson: further properties *)

Section NewtonMore.

Variables f df : float -> float.
Variable eps : float.
Variable max_its : Z.

(** A run that raises [ZeroDivisionError] is on Python floats, and stopped
    at the first iterate where [df] is zero, the guard having held up to
    it. *)
Lemma newton_while_zero_division kind n : forall x iteration,
  (Z.to_nat (max_its - iteration) <= n)%nat ->
  newton_while kind f df eps max_its x iteration = Raise ZeroDivisionError ->
  kind = python_float
  /\ exists k, (k <= n)%nat /\ guarded f df eps (S k) x
               /\ divisible kind f df k x
               /\ (df (newton_seq f df k x) =? 0)%float = true.
Proof.
  induction n as [|n IH]; intros x iteration Hn; rewrite newton_while_pass;
    destruct (abs (f x) >? eps)%float eqn:G; try discriminate;
    unfold newton_body, bind, truediv;
    (destruct kind; [destruct (df x =? 0)%float eqn:Z0|]);
    try (destruct (iteration + 1 >? max_its) eqn:E; [discriminate|]);
    try (counter_cap).
  - intros _. split; [reflexivity|]. exists 0%nat.
    repeat split; try lia; try assumption.
    + intros [|j] Hj; [exact G|lia].
    + intros j Hj. lia.
  - intros _. split; [reflexivity|]. exists 0%nat.
    repeat split; try lia; try assumption.
    + intros [|j] Hj; [exact G|lia].
    + intros j Hj. lia.
  - intros H. apply IH in H; [|counter_cap].
    destruct H as (_ & k & Hk & Hg & Hd & Hz). split; [reflexivity|].
    exists (S k). repeat split; try lia; try assumption.
    + intros [|j] Hj; [exact G|]. apply Hg. lia.
    + intros [|j] Hj.
      * simpl. rewrite Z0. reflexivity.
      * apply Hd. lia.
  - intros H. apply IH in H; [|counter_cap].
    destruct H as (Hkind & _). discriminate.
Qed.

(** Where it raises no [ZeroDivisionError], the run on Python floats is the
    run on numpy floats. *)
Lemma newton_while_kinds_agree n : forall x iteration,
  (Z.to_nat (max_its - iteration) <= n)%nat ->
  newton_while python_float f df eps max_its x iteration
  <> Raise ZeroDivisionError ->
  newton_while numpy_float64 f df eps max_its x iteration
  = newton_while python_float f df eps max_its x iteration.
Proof.
  induction n as [|n IH]; intros x iteration Hn;
    rewrite !newton_while_pass;
    destruct (abs (f x) >? eps)%float eqn:G; try reflexivity;
    unfold newton_body, bind, truediv;
    destruct (df x =? 0)%float eqn:Z0; try congruence;
    destruct (iteration + 1 >? max_its) eqn:E; try reflexivity;
    try counter_cap.
  intros H. apply IH; [counter_cap|assumption].
Qed.

(** An update that leaves [x] where it is leaves every later one there. *)
Lemma newton_seq_fixed x n :
  (x - f x / df x)%float = x -> newton_seq f df n x = x.
Proof.
  intros Hfix. induction n as [|n IH]; [reflexivity|].
  simpl. rewrite Hfix. exact IH.
Qed.

End NewtonMore.

(** X1.  [newton_raphson] returns [x_0] itself exactly when the guard
    [|f(x_0)| > eps] is false, whatever [df], the cap and the kind of
    floats are; that is the case when [|f(x_0)| <= eps], and also when
    [f(x_0)] or [eps] is a NaN. *)
Theorem newton_raphson_returns_start kind f df x_0 eps max_its :
  (newton_raphson kind f df x_0 eps max_its = Ok x_0
   <-> (abs (f x_0) >? eps)%float = false)
  /\ ((abs (f x_0) <=? eps)%float = true
      \/ is_nan (f x_0) = true \/ is_nan eps = true ->
      newton_raphson kind f df x_0 eps max_its = Ok x_0).
Proof.
  assert ((abs (f x_0) >? eps)%float = false ->
          newton_raphson kind f df x_0 eps max_its = Ok x_0) as Hstop.
  { intros G. unfold newton_raphson. rewrite newton_while_pass, G.
    reflexivity. }
  split; [split; [|exact Hstop]|].
  - intros H. apply newton_raphson_returns in H. apply H.
  - intros [Hle|Hnan]; apply Hstop.
    + apply leb_not_gtb. assumption.
    + apply is_nan_not_gtb. rewrite is_nan_abs. assumption.
Qed.

(** A function that is never a number has every start accepted, even with
    no update allowed and a derivative that is zero. *)
Lemma newton_raphson_returns_start_witness :
  is_nan (const_nan 3) = true
  /\ newton_raphson python_float const_nan const_0 3 0.5 (-1) = Ok 3%float
  /\ (abs (identity 3) >? 0.5)%float = true
  /\ newton_raphson python_float identity const_1 3 0.5 20 <> Ok 3%float.
Proof.
  split; [reflexivity|]. split; [|split; [reflexivity|]].
  - apply (newton_raphson_returns_start
             python_float const_nan const_0 3 0.5 (-1)).
    right. left. reflexivity.
  - intros H.
    apply (newton_raphson_returns_start
             python_float identity const_1 3 0.5 20) in H.
    discriminate H.
Defined.

(** X2.  A value [newton_raphson] returns has [|f(r)| <= eps], unless
    [f(r)] or [eps] is a NaN. *)
Theorem newton_raphson_within_tolerance kind f df x_0 eps max_its r :
  newton_raphson kind f df x_0 eps max_its = Ok r ->
  (abs (f r) <=? eps)%float = true
  \/ is_nan (f r) = true \/ is_nan eps = true.
Proof.
  intros H. apply newton_raphson_returns in H. destruct H as [G _].
  apply not_gtb_cases in G. rewrite is_nan_abs in G. exact G.
Qed.

Lemma newton_raphson_within_tolerance_witness :
  newton_raphson python_float sq_minus_2 two_x 1 0x1p-17 20
  = Ok 0x1.6a0a0a0a0a0a1p+0%float
  /\ ((abs (sq_minus_2 0x1.6a0a0a0a0a0a1p+0) <=? 0x1p-17)%float = true
      \/ is_nan (sq_minus_2 0x1.6a0a0a0a0a0a1p+0) = true
      \/ is_nan 0x1p-17 = true).
Proof.
  assert (newton_raphson python_float sq_minus_2 two_x 1 0x1p-17 20
          = Ok 0x1.6a0a0a0a0a0a1p+0%float) as H by (vm_compute; reflexivity).
  split; [exact H|].
  exact (newton_raphson_within_tolerance
           python_float sq_minus_2 two_x 1 0x1p-17 20 _ H).
Defined.

(** X3.  On Python floats [newton_raphson] raises [ZeroDivisionError]
    exactly when, within the cap, it reaches an iterate where [df] is zero
    with the guard holding there and at every iterate before, none of which
    has a zero [df].  On numpy floats it never does, and [ConvergenceError]
    is the only other exception of either kind. *)
Theorem newton_raphson_zero_division f df x_0 eps max_its :
  (newton_raphson python_float f df x_0 eps max_its = Raise ZeroDivisionError
   <-> exists k, (k <= Z.to_nat max_its)%nat
                 /\ guarded f df eps (S k) x_0
                 /\ divisible python_float f df k x_0
                 /\ (df (newton_seq f df k x_0) =? 0)%float = true)
  /\ newton_raphson numpy_float64 f df x_0 eps max_its
     <> Raise ZeroDivisionError
  /\ (forall kind e,
        newton_raphson kind f df x_0 eps max_its = Raise e ->
        e = ConvergenceError
        \/ (kind = python_float /\ e = ZeroDivisionError)).
Proof.
  assert (forall kind,
            newton_raphson kind f df x_0 eps max_its = Raise ZeroDivisionError ->
            kind = python_float
            /\ exists k, (k <= Z.to_nat max_its)%nat
                 /\ guarded f df eps (S k) x_0
                 /\ divisible kind f df k x_0
                 /\ (df (newton_seq f df k x_0) =? 0)%float = true) as Hzd.
  { intros kind H. unfold newton_raphson in H.
    apply (newton_while_zero_division f df eps max_its kind
             (Z.to_nat max_its)) in H; [assumption|].
    rewrite Z.sub_0_r. lia. }
  split; [split|split].
  - intros H. apply Hzd in H. apply H.
  - intros (k & Hk & Hg & Hd & Hz). unfold newton_raphson.
    rewrite (newton_while_passes python_float f df eps max_its k).
    + rewrite newton_while_pass. rewrite (Hg k) by lia.
      rewrite (newton_body_raises _ _ _ _ _ _ ZeroDivisionError);
        [reflexivity|].
      unfold truediv. rewrite Hz. reflexivity.
    + lia.
    + intros j Hj. apply Hg. lia.
    + assumption.
  - intros H. apply Hzd in H. destruct H as [H _]. discriminate.
  - intros kind [| |] H.
    + left. reflexivity.
    + exfalso. exact (newton_raphson_no_value_error _ _ _ _ _ _ _ H).
    + right. apply Hzd in H. destruct H as [H _]. auto.
Qed.

(** With [f(x) = 1] and [df(x) = 0] the guard holds at [x_0 = 0] and the
    very first division raises. *)
Lemma newton_raphson_zero_division_witness :
  (exists k, (k <= Z.to_nat 20)%nat
             /\ guarded const_1 const_0 0.5 (S k) 0
             /\ divisible python_float const_1 const_0 k 0
             /\ (const_0 (newton_seq const_1 const_0 k 0) =? 0)%float = true)
  /\ newton_raphson python_float const_1 const_0 0 0.5 20
     = Raise ZeroDivisionError.
Proof.
  assert (exists k, (k <= Z.to_nat 20)%nat
             /\ guarded const_1 const_0 0.5 (S k) 0
             /\ divisible python_float const_1 const_0 k 0
             /\ (const_0 (newton_seq const_1 const_0 k 0) =? 0)%float = true)
    as Hex.
  { exists 0%nat. split; [lia|]. split; [|split; [|reflexivity]].
    - intros [|j] Hj; [reflexivity|lia].
    - intros j Hj. lia. }
  split; [exact Hex|].
  exact (proj2 (proj1 (newton_raphson_zero_division
                         const_1 const_0 0 0.5 20)) Hex).
Defined.

(** X4.  An update that does not move [x_0] while the guard holds there, as
    when the step is too small for [x_0] to absorb, ends the call with
    [ConvergenceError]. *)
Theorem newton_raphson_stagnates kind f df x_0 eps max_its q :
  (abs (f x_0) >? eps)%float = true ->
  truediv kind (f x_0) (df x_0) = Ok q ->
  (x_0 - q)%float = x_0 ->
  newton_raphson kind f df x_0 eps max_its = Raise ConvergenceError.
Proof.
  intros G D Hfix. pose proof (truediv_ok _ _ _ _ D) as Hq. subst q.
  apply newton_raphson_exhausts.
  - intros j _. rewrite newton_seq_fixed by assumption. exact G.
  - intros j _. rewrite newton_seq_fixed by assumption. exact D.
Qed.

(** From [2^100] a step of [1] is lost in rounding. *)
Lemma newton_raphson_stagnates_witness :
  ((abs (const_1 0x1p+100) >? 0.5)%float = true
   /\ truediv python_float (const_1 0x1p+100) (const_1 0x1p+100) = Ok 1%float
   /\ (0x1p+100 - 1)%float = 0x1p+100%float)
  /\ newton_raphson python_float const_1 const_1 0x1p+100 0.5 20
     = Raise ConvergenceError.
Proof.
  split; [repeat split|].
  apply (newton_raphson_stagnates
           python_float const_1 const_1 0x1p+100 0.5 20 1);
    reflexivity.
Defined.

(** X5.  Unless the run on Python floats raises [ZeroDivisionError], it has
    the outcome of the run on numpy floats. *)
Theorem newton_raphson_kinds_agree f df x_0 eps max_its :
  newton_raphson python_float f df x_0 eps max_its
  <> Raise ZeroDivisionError ->
  newton_raphson numpy_float64 f df x_0 eps max_its
  = newton_raphson python_float f df x_0 eps max_its.
Proof.
  unfold newton_raphson.
  apply (newton_while_kinds_agree f df eps max_its (Z.to_nat max_its)).
  rewrite Z.sub_0_r. lia.
Qed.

Lemma newton_raphson_kinds_agree_witness :
  newton_raphson python_float sq_minus_2 two_x 1 0x1p-17 20
  = Ok 0x1.6a0a0a0a0a0a1p+0%float
  /\ newton_raphson numpy_float64 sq_minus_2 two_x 1 0x1p-17 20
     = newton_raphson python_float sq_minus_2 two_x 1 0x1p-17 20.
Proof.
  assert (newton_raphson python_float sq_minus_2 two_x 1 0x1p-17 20
          = Ok 0x1.6a0a0a0a0a0a1p+0%float) as H by (vm_compute; reflexivity).
  split; [exact H|].
  apply (newton_raphson_kinds_agree sq_minus_2 two_x 1 0x1p-17 20).
  rewrite H. discriminate.
Defined.

(** * Bisection: further properties *)

Section BisectionMore.

Variable f : float -> float.
Variable eps : float.
Variable max_its : Z.

(** The loop, from the start of a pass to the outcome of the call. *)
Lemma bisection_while_ends x_0 x_1 n : forall a b m i,
  (Z.to_nat (max_its - i) <= n)%nat ->
  bisection_pass f eps max_its x_0 x_1 (a, b, m, i) ->
  bisection_ends f eps max_its x_0 x_1
    (bisection_while f eps max_its a b m i).
Proof.
  induction n as [|n IH]; intros a b m i Hn Hpass;
    rewrite bisection_while_pass;
    rewrite (bisection_pass_guard _ _ _ _ _ _ _ _ _ Hpass);
    destruct (bisection_body f max_its a b m i)
      as [[[[a' b'] m'] i']|e] eqn:B;
    try (apply (ends_raising _ _ _ _ _ a b m i e); assumption);
    pose proof (bisection_body_completes _ _ _ _ _ _ _ _ _ _ B)
      as (_ & Hi & Hcap);
    destruct (abs (f m') >? eps)%float eqn:G;
    try (rewrite bisection_while_pass, G;
         apply (ends_returning _ _ _ _ _ a b m i a' b' m' i'); assumption).
  - lia.
  - apply IH; [lia|].
    apply (pass_next _ _ _ _ _ a b m i a' b' m' i'); assumption.
Qed.

Lemma bisection_ends_spec x_0 x_1 :
  bisection_ends f eps max_its x_0 x_1 (bisection f x_0 x_1 eps max_its).
Proof.
  unfold bisection.
  destruct (abs (f ((x_0 + x_1) / 2)) >? eps)%float eqn:G.
  - apply (bisection_while_ends x_0 x_1 (Z.to_nat (max_its - 0)));
      [lia|]. apply pass_first. assumption.
  - rewrite bisection_while_pass, G. apply ends_at_once. assumption.
Qed.

(** The counter at the start of a pass. *)
Lemma bisection_pass_counter x_0 x_1 a b m i :
  bisection_pass f eps max_its x_0 x_1 (a, b, m, i) ->
  0 <= i <= Z.max 0 max_its.
Proof.
  intros H. remember (a, b, m, i) as st eqn:Est. revert a b m i Est.
  induction H as [Hg|a0 b0 m0 i0 a' b' m' i' Hpass IH Hbody Hg];
    intros a b m i Est; injection Est as <- <- <- <-.
  - lia.
  - apply bisection_body_completes in Hbody.
    specialize (IH a0 b0 m0 i0 eq_refl). lia.
Qed.

(** The brackets of a call that starts from opposite signs. *)
Lemma bisection_pass_signs x_0 x_1 a b m i :
  opposite_signs f x_0 x_1 = true ->
  bisection_pass f eps max_its x_0 x_1 (a, b, m, i) ->
  opposite_signs f a b = true.
Proof.
  intros Hopp H. remember (a, b, m, i) as st eqn:Est. revert a b m i Est.
  induction H as [Hg|a0 b0 m0 i0 a' b' m' i' Hpass IH Hbody Hg];
    intros a b m i Est; injection Est as <- <- <- <-.
  - assumption.
  - apply (bisection_body_keeps_signs f max_its a0 b0 m0 i0 a' b' m' i');
      [|assumption].
    apply (IH a0 b0 m0 i0). reflexivity.
Qed.

(** What a pass can raise, and when. *)
Lemma bisection_body_raises a b m i e :
  bisection_body f max_its a b m i = Raise e ->
  (e = ValueError "f(x) positive for both endpoints."
   /\ (f a >? 0)%float = true /\ (f b >? 0)%float = true)
  \/ (e = ValueError "f(x) negative for both endpoints."
      /\ (f a <? 0)%float = true /\ (f b <? 0)%float = true)
  \/ (e = ConvergenceError /\ max_its < i + 1).
Proof.
  unfold bisection_body, bind.
  destruct ((f a >? 0)%float && (f b >? 0)%float) eqn:P.
  { intros H. injection H as <-. apply andb_true_iff in P. auto. }
  destruct ((f a <? 0)%float && (f b <? 0)%float) eqn:N.
  { intros H. injection H as <-. apply andb_true_iff in N. auto. }
  repeat match goal with
         | |- context [if ?c then _ else _] => destruct c eqn:?
         end; try discriminate;
    intros H; injection H as <-; right; right;
    (split; [reflexivity|counter_cap]).
Qed.

(** Opposite signs pass the test of lines 79 to 82. *)
Lemma opposite_signs_pass a b m i msg :
  opposite_signs f a b = true ->
  bisection_body f max_its a b m i <> Raise (ValueError msg).
Proof.
  unfold opposite_signs. intros Hopp H.
  apply bisection_body_raises in H.
  apply orb_true_iff in Hopp.
  destruct Hopp as [Hopp|Hopp]; apply andb_true_iff in Hopp;
    destruct Hopp as [Ha Hb];
    destruct H as [(_ & Pa & Pb)|[(_ & Na & Nb)|(H & _)]];
    try discriminate;
    try (apply ltb_not_gtb in Ha; congruence);
    try (apply ltb_not_gtb in Hb; congruence);
    try (apply gtb_not_ltb in Ha; congruence);
    try (apply gtb_not_ltb in Hb; congruence).
Qed.

(** The bracket a pass leaves depends on the bracket it starts from, not on
    [x_mid] nor on the counter. *)
Lemma bisection_body_again a b m i a' b' m' i' :
  bisection_body f max_its a b m i = Ok (a', b', m', i') ->
  forall m2 i2,
    bisection_body f max_its a b m2 i2 =
    if i2 + 1 >? max_its then Raise ConvergenceError
    else Ok (a', b', m', i2 + 1).
Proof.
  unfold bisection_body, bind. intros H m2 i2. revert H.
  destruct ((f a >? 0)%float && (f b >? 0)%float); [discriminate|].
  destruct ((f a <? 0)%float && (f b <? 0)%float); [discriminate|].
  repeat match goal with
         | |- context [if (?c && ?d)%bool then _ else _] =>
             destruct (c && d)%bool
         end;
    destruct (i + 1 >? max_its); try discriminate;
    intros H; injection H as <- <- <- _; reflexivity.
Qed.

(** A bracket that a pass leaves as it found it stays so until the cap. *)
Lemma bisection_while_stalled a b m' n : forall i,
  (Z.to_nat (max_its - i) <= n)%nat ->
  (abs (f m') >? eps)%float = true ->
  (forall m2 i2,
     bisection_body f max_its a b m2 i2 =
     if i2 + 1 >? max_its then Raise ConvergenceError
     else Ok (a, b, m', i2 + 1)) ->
  bisection_while f eps max_its a b m' i = Raise ConvergenceError.
Proof.
  induction n as [|n IH]; intros i Hn G Hbody;
    rewrite bisection_while_pass, G, Hbody;
    destruct (i + 1 >? max_its) eqn:E; try reflexivity.
  - counter_cap.
  - apply IH; [counter_cap|assumption|assumption].
Qed.

End BisectionMore.

(** With opposite signs at the ends of the first bracket, the only exception
    is [ConvergenceError]. *)
Lemma bisection_ends_signed f eps max_its x_0 x_1 r :
  opposite_signs f x_0 x_1 = true ->
  bisection_ends f eps max_its x_0 x_1 r ->
  forall e, r = Raise e -> e = ConvergenceError.
Proof.
  intros Hopp Hends e Hr.
  destruct Hends as [G|a b m i e' Hpass Hbody|a b m i a' b' m' i' Hpass Hbody G];
    try discriminate.
  injection Hr as ->.
  pose proof (bisection_pass_signs f eps max_its _ _ _ _ _ _ Hopp Hpass)
    as Hsigns.
  destruct e as [|msg|]; [reflexivity| |].
  - exfalso. exact (opposite_signs_pass f max_its a b m i msg Hsigns Hbody).
  - apply bisection_body_raises in Hbody.
    destruct Hbody as [(H & _)|[(H & _)|(H & _)]]; discriminate.
Qed.

(** X6.  A value [bisection] returns has [|f(r)| <= eps], unless [f(r)] or
    [eps] is a NaN. *)
Theorem bisection_within_tolerance f x_0 x_1 eps max_its r :
  bisection f x_0 x_1 eps max_its = Ok r ->
  (abs (f r) <=? eps)%float = true
  \/ is_nan (f r) = true \/ is_nan eps = true.
Proof.
  intros H. apply bisection_returns in H.
  apply not_gtb_cases in H. rewrite is_nan_abs in H. exact H.
Qed.

Lemma bisection_within_tolerance_witness :
  bisection sq_minus_2 0 2 0x1p-17 20 = Ok 0x1.6a0ap+0%float
  /\ ((abs (sq_minus_2 0x1.6a0ap+0) <=? 0x1p-17)%float = true
      \/ is_nan (sq_minus_2 0x1.6a0ap+0) = true \/ is_nan 0x1p-17 = true).
Proof.
  assert (bisection sq_minus_2 0 2 0x1p-17 20 = Ok 0x1.6a0ap+0%float) as H
      by (vm_compute; reflexivity).
  split; [exact H|].
  exact (bisection_within_tolerance sq_minus_2 0 2 0x1p-17 20 _ H).
Defined.

(** X7.  From a bracket with [f] of opposite signs at its ends, a value
    [bisection] returns is the midpoint of a bracket with [f] of opposite
    signs at its ends. *)
Theorem bisection_returns_bracket_midpoint f x_0 x_1 eps max_its r :
  opposite_signs f x_0 x_1 = true ->
  bisection f x_0 x_1 eps max_its = Ok r ->
  exists a b, opposite_signs f a b = true /\ r = ((a + b) / 2)%float.
Proof.
  intros Hopp H. pose proof (bisection_ends_spec f eps max_its x_0 x_1) as E.
  rewrite H in E. remember (Ok r) as res eqn:Hres.
  destruct E as [G|a b m i e Hpass Hbody|a b m i a' b' m' i' Hpass Hbody G];
    try discriminate; injection Hres as <-.
  - exists x_0, x_1. auto.
  - exists a, b. split.
    + exact (bisection_pass_signs f eps max_its _ _ _ _ _ _ Hopp Hpass).
    + apply bisection_body_completes in Hbody. apply Hbody.
Qed.

Lemma bisection_returns_bracket_midpoint_witness :
  opposite_signs sq_minus_2 0 2 = true
  /\ bisection sq_minus_2 0 2 0x1p-17 20 = Ok 0x1.6a0ap+0%float
  /\ exists a b, opposite_signs sq_minus_2 a b = true
                 /\ 0x1.6a0ap+0%float = ((a + b) / 2)%float.
Proof.
  assert (bisection sq_minus_2 0 2 0x1p-17 20 = Ok 0x1.6a0ap+0%float) as H
      by (vm_compute; reflexivity).
  split; [reflexivity|]. split; [exact H|].
  exact (bisection_returns_bracket_midpoint
           sq_minus_2 0 2 0x1p-17 20 _ eq_refl H).
Defined.

(** X8.  When [bisection] raises [ValueError], a pass started from a bracket
    with [f] positive at both ends, and the message says so, or negative at
    both ends, and the message says so. *)
Theorem bisection_value_error_sound f x_0 x_1 eps max_its msg :
  bisection f x_0 x_1 eps max_its = Raise (ValueError msg) ->
  exists a b m i,
    bisection_pass f eps max_its x_0 x_1 (a, b, m, i)
    /\ ((msg = "f(x) positive for both endpoints."%string
         /\ (f a >? 0)%float = true /\ (f b >? 0)%float = true)
        \/ (msg = "f(x) negative for both endpoints."%string
            /\ (f a <? 0)%float = true /\ (f b <? 0)%float = true)).
Proof.
  intros H. pose proof (bisection_ends_spec f eps max_its x_0 x_1) as E.
  rewrite H in E. remember (Raise (ValueError msg)) as res eqn:Hres.
  destruct E as [G|a b m i e Hpass Hbody|a b m i a' b' m' i' Hpass Hbody G];
    try discriminate; injection Hres as ->.
  exists a, b, m, i. split; [assumption|].
  apply bisection_body_raises in Hbody.
  destruct Hbody as [(Hm & Ha & Hb)|[(Hm & Ha & Hb)|(Hm & _)]];
    try discriminate; injection Hm as ->; auto.
Qed.

Lemma bisection_value_error_sound_witness :
  bisection sq_plus_1 0 2 0.5 20
  = Raise (ValueError "f(x) positive for both endpoints.")
  /\ exists a b m i,
       bisection_pass sq_plus_1 0.5 20 0 2 (a, b, m, i)
       /\ (("f(x) positive for both endpoints."%string
            = "f(x) positive for both endpoints."%string
            /\ (sq_plus_1 a >? 0)%float = true
            /\ (sq_plus_1 b >? 0)%float = true)
           \/ ("f(x) positive for both endpoints."%string
               = "f(x) negative for both endpoints."%string
               /\ (sq_plus_1 a <? 0)%float = true
               /\ (sq_plus_1 b <? 0)%float = true)).
Proof.
  assert (bisection sq_plus_1 0 2 0.5 20
          = Raise (ValueError "f(x) positive for both endpoints.")) as H
      by (vm_compute; reflexivity).
  split; [exact H|].
  exact (bisection_value_error_sound sq_plus_1 0 2 0.5 20 _ H).
Defined.

(** X9.  From a bracket with [f] of opposite signs at its ends, [bisection]
    raises no [ValueError]: it returns or raises [ConvergenceError]. *)
Theorem bisection_valid_bracket f x_0 x_1 eps max_its :
  opposite_signs f x_0 x_1 = true ->
  (exists r, bisection f x_0 x_1 eps max_its = Ok r)
  \/ bisection f x_0 x_1 eps max_its = Raise ConvergenceError.
Proof.
  intros Hopp.
  pose proof (bisection_ends_signed f eps max_its x_0 x_1 _ Hopp
                (bisection_ends_spec f eps max_its x_0 x_1)) as H.
  destruct (bisection f x_0 x_1 eps max_its) as [r|e].
  - left. exists r. reflexivity.
  - right. rewrite (H e eq_refl). reflexivity.
Qed.

Lemma bisection_valid_bracket_witness :
  opposite_signs sq_minus_2 0 2 = true
  /\ ((exists r, bisection sq_minus_2 0 2 0x1p-17 3 = Ok r)
      \/ bisection sq_minus_2 0 2 0x1p-17 3 = Raise ConvergenceError).
Proof.
  split; [reflexivity|].
  exact (bisection_valid_bracket sq_minus_2 0 2 0x1p-17 3 eq_refl).
Defined.

(** X10.  No pass of [bisection] starts with the counter below [0] or above
    the cap, and [ConvergenceError] is raised by the pass that starts with
    the counter at the cap ([0] for a negative cap). *)
Theorem bisection_gives_up_at_cap f x_0 x_1 eps max_its :
  (forall a b m i,
     bisection_pass f eps max_its x_0 x_1 (a, b, m, i) ->
     0 <= i <= Z.max 0 max_its)
  /\ (bisection f x_0 x_1 eps max_its = Raise ConvergenceError ->
      exists a b m,
        bisection_pass f eps max_its x_0 x_1 (a, b, m, Z.max 0 max_its)).
Proof.
  split.
  - intros a b m i. apply bisection_pass_counter.
  - intros H. pose proof (bisection_ends_spec f eps max_its x_0 x_1) as E.
    rewrite H in E. remember (Raise ConvergenceError) as res eqn:Hres.
    destruct E as [G|a b m i e Hpass Hbody|a b m i a' b' m' i' Hpass Hbody G];
      try discriminate; injection Hres as ->.
    apply bisection_body_raises in Hbody.
    destruct Hbody as [(Hm & _)|[(Hm & _)|(_ & Hcap)]]; try discriminate.
    pose proof (bisection_pass_counter f eps max_its _ _ _ _ _ _ Hpass) as Hi.
    exists a, b, m. replace (Z.max 0 max_its) with i by lia. assumption.
Qed.

(** With a cap of one pass, bisection on [x^2 - 2] over [[0, 2]] gives up in
    its second pass, started from [[1, 2]] with the counter at [1]. *)
Lemma bisection_gives_up_at_cap_witness :
  bisection sq_minus_2 0 2 0x1p-17 1 = Raise ConvergenceError
  /\ exists a b m, bisection_pass sq_minus_2 0x1p-17 1 0 2 (a, b, m, Z.max 0 1).
Proof.
  assert (bisection sq_minus_2 0 2 0x1p-17 1 = Raise ConvergenceError) as H
      by (vm_compute; reflexivity).
  split; [exact H|].
  exact (proj2 (bisection_gives_up_at_cap sq_minus_2 0 2 0x1p-17 1) H).
Defined.

(** X11.  A pass that leaves the bracket as it found it, with the guard
    holding before and after, is repeated until the cap: the loop ends with
    [ConvergenceError]. *)
Theorem bisection_stalls f eps max_its a b m i m' i' :
  (abs (f m) >? eps)%float = true ->
  bisection_body f max_its a b m i = Ok (a, b, m', i') ->
  (abs (f m') >? eps)%float = true ->
  bisection_while f eps max_its a b m i = Raise ConvergenceError.
Proof.
  intros G Hbody G'. rewrite bisection_while_pass, G, Hbody.
  apply (bisection_while_stalled f eps max_its a b m'
           (Z.to_nat (max_its - i'))); [lia|assumption|].
  apply (bisection_body_again f max_its a b m i a b m' i'). assumption.
Qed.

(** [f(x) = x (2 - x)] over [[0, 3]] has the root [2] inside the bracket and
    the root [0] at its left end.  [f(0)] is a zero and [f(1.5) > 0],
    [f(3) < 0] match no case: the bracket never moves and the call gives
    up. *)
Lemma bisection_stalls_witness :
  ((abs (x_times_2_minus_x 1.5) >? 0x1p-17)%float = true
   /\ bisection_body x_times_2_minus_x 20 0 3 1.5 0
      = Ok (0%float, 3%float, 1.5%float, 1))
  /\ bisection x_times_2_minus_x 0 3 0x1p-17 20 = Raise ConvergenceError.
Proof.
  assert (bisection_body x_times_2_minus_x 20 0 3 1.5 0
          = Ok (0%float, 3%float, 1.5%float, 1)) as Hbody
      by (vm_compute; reflexivity).
  split; [split; [reflexivity|exact Hbody]|].
  exact (bisection_stalls x_times_2_minus_x 0x1p-17 20 0 3 1.5 0 1.5 1
           eq_refl Hbody eq_refl).
Defined.

(** * The composite solver: further properties *)

(** The exceptions of [newton_raphson]. *)
Lemma newton_raphson_raises kind f df x_0 eps max_its e :
  newton_raphson kind f df x_0 eps max_its = Raise e ->
  e = ConvergenceError \/ (kind = python_float /\ e = ZeroDivisionError).
Proof.
  destruct e as [|msg|]; intros H.
  - left. reflexivity.
  - exfalso. exact (newton_raphson_no_value_error _ _ _ _ _ _ _ H).
  - right. split; [|reflexivity]. unfold newton_raphson in H.
    apply (newton_while_zero_division f df eps max_its kind
             (Z.to_nat max_its)) in H; [apply H|].
    rewrite Z.sub_0_r. lia.
Qed.

(** X12.  A value [solve] returns, from either stage, has [|f(r)| <= eps],
    unless [f(r)] or [eps] is a NaN. *)
Theorem solve_within_tolerance kind f df x_0 x_1 eps max_its_n max_its_b r :
  solve kind f df x_0 x_1 eps max_its_n max_its_b = Ok r ->
  (abs (f r) <=? eps)%float = true
  \/ is_nan (f r) = true \/ is_nan eps = true.
Proof.
  unfold solve. intros H.
  assert ((abs (f r) >? eps)%float = false) as G.
  { destruct (newton_raphson kind f df x_0 eps max_its_n) as [x|[]] eqn:N;
      try discriminate.
    - injection H as <-. apply newton_raphson_returns in N. apply N.
    - apply bisection_returns in H. assumption. }
  apply not_gtb_cases in G. rewrite is_nan_abs in G. exact G.
Qed.

(** With no Newton update allowed, the value comes from bisection. *)
Lemma solve_within_tolerance_witness :
  solve python_float sq_minus_2 two_x 1 2 0x1p-17 0 20 = Ok 0x1.6a0ap+0%float
  /\ ((abs (sq_minus_2 0x1.6a0ap+0) <=? 0x1p-17)%float = true
      \/ is_nan (sq_minus_2 0x1.6a0ap+0) = true \/ is_nan 0x1p-17 = true).
Proof.
  assert (solve python_float sq_minus_2 two_x 1 2 0x1p-17 0 20
          = Ok 0x1.6a0ap+0%float) as H by (vm_compute; reflexivity).
  split; [exact H|].
  exact (solve_within_tolerance
           python_float sq_minus_2 two_x 1 2 0x1p-17 0 20 _ H).
Defined.

(** X13.  With [f] of opposite signs at [x_0] and [x_1], [solve] raises no
    [ValueError]: its exceptions are the [ConvergenceError] of bisection
    and, on Python floats only, the [ZeroDivisionError] of the Newton
    stage. *)
Theorem solve_valid_bracket kind f df x_0 x_1 eps max_its_n max_its_b e :
  opposite_signs f x_0 x_1 = true ->
  solve kind f df x_0 x_1 eps max_its_n max_its_b = Raise e ->
  (e = ConvergenceError
   /\ newton_raphson kind f df x_0 eps max_its_n = Raise ConvergenceError
   /\ bisection f x_0 x_1 eps max_its_b = Raise ConvergenceError)
  \/ (e = ZeroDivisionError /\ kind = python_float
      /\ newton_raphson kind f df x_0 eps max_its_n = Raise ZeroDivisionError).
Proof.
  unfold solve. intros Hopp H.
  destruct (newton_raphson kind f df x_0 eps max_its_n) as [x|e'] eqn:N;
    [discriminate|].
  destruct (newton_raphson_raises _ _ _ _ _ _ _ N) as [->|[-> ->]].
  - left.
    pose proof (bisection_ends_signed f eps max_its_b x_0 x_1 _ Hopp
                  (bisection_ends_spec f eps max_its_b x_0 x_1) e H) as ->.
    auto.
  - right. injection H as <-. auto.
Qed.

(** On [x^2 - 2] over [[1, 2]] with no Newton update and two passes of
    bisection allowed, both stages give up. *)
Lemma solve_valid_bracket_witness :
  opposite_signs sq_minus_2 1 2 = true
  /\ solve python_float sq_minus_2 two_x 1 2 0x1p-17 0 2
     = Raise ConvergenceError
  /\ ((ConvergenceError = ConvergenceError
       /\ newton_raphson python_float sq_minus_2 two_x 1 0x1p-17 0
          = Raise ConvergenceError
       /\ bisection sq_minus_2 1 2 0x1p-17 2 = Raise ConvergenceError)
      \/ (ConvergenceError = ZeroDivisionError /\ python_float = python_float
          /\ newton_raphson python_float sq_minus_2 two_x 1 0x1p-17 0
             = Raise ZeroDivisionError)).
Proof.
  assert (solve python_float sq_minus_2 two_x 1 2 0x1p-17 0 2
          = Raise ConvergenceError) as H by (vm_compute; reflexivity).
  split; [reflexivity|]. split; [exact H|].
  exact (solve_valid_bracket python_float sq_minus_2 two_x 1 2 0x1p-17 0 2 _
           eq_refl H).
Defined.

(** * Tolerances and caps out of range *)

(** X14.  With a negative [eps] no solver returns a point where [f] is a
    number: whatever [newton_raphson], [bisection] or [solve] returns then
    has a NaN for [f(r)]. *)
Theorem negative_tolerance_never_met kind f df x_0 x_1 eps max_its_n max_its_b :
  (eps <? 0)%float = true ->
  (forall r, newton_raphson kind f df x_0 eps max_its_n = Ok r ->
             is_nan (f r) = true)
  /\ (forall r, bisection f x_0 x_1 eps max_its_b = Ok r ->
                is_nan (f r) = true)
  /\ (forall r, solve kind f df x_0 x_1 eps max_its_n max_its_b = Ok r ->
                is_nan (f r) = true).
Proof.
  intros Hneg.
  assert (is_nan eps = false) as Heps.
  { destruct (is_nan eps) eqn:E; [|reflexivity].
    assert ((0 >? eps)%float = false) as H
        by (apply is_nan_not_gtb; right; assumption).
    unfold gtb in H. congruence. }
  assert (forall r, (abs (f r) >? eps)%float = false -> is_nan (f r) = true)
    as Hnan.
  { intros r G. apply not_gtb_cases in G. rewrite is_nan_abs in G.
    destruct G as [G|[G|G]]; [|assumption|congruence].
    rewrite abs_not_leb_negative in G by assumption. discriminate. }
  split; [|split]; intros r H; apply Hnan.
  - apply newton_raphson_returns in H. apply H.
  - apply bisection_returns in H. assumption.
  - unfold solve in H.
    destruct (newton_raphson kind f df x_0 eps max_its_n) as [x|[]] eqn:N;
      try discriminate.
    + injection H as <-. apply newton_raphson_returns in N. apply N.
    + apply bisection_returns in H. assumption.
Qed.

(** With [eps = -1]: on [x^2 - 2] Newton's method runs into the cap, and on
    a function that is never a number the start is returned. *)
Lemma negative_tolerance_never_met_witness :
  (-1 <? 0)%float = true
  /\ newton_raphson python_float sq_minus_2 two_x 1 (-1) 20
     = Raise ConvergenceError
  /\ newton_raphson python_float const_nan const_1 1 (-1) 20 = Ok 1%float
  /\ is_nan (const_nan 1) = true.
Proof.
  split; [reflexivity|]. split; [vm_compute; reflexivity|].
  assert (newton_raphson python_float const_nan const_1 1 (-1) 20
          = Ok 1%float) as H by (vm_compute; reflexivity).
  split; [exact H|].
  exact (proj1 (negative_tolerance_never_met python_float const_nan const_1
                  1 2 (-1) 20 20 eq_refl) _ H).
Defined.

(** X15.  With a cap of [0] or less, [newton_raphson] can only return
    [x_0] and [bisection] the midpoint of [x_0] and [x_1]: the one update
    or pass they make ends in an exception. *)
Theorem zero_cap_returns_start kind f df x_0 x_1 eps max_its :
  max_its <= 0 ->
  (forall r, newton_raphson kind f df x_0 eps max_its = Ok r -> r = x_0)
  /\ (forall r, bisection f x_0 x_1 eps max_its = Ok r ->
                r = ((x_0 + x_1) / 2)%float)
  /\ ((abs (f x_0) >? eps)%float = true ->
      exists e, newton_raphson kind f df x_0 eps max_its = Raise e)
  /\ ((abs (f ((x_0 + x_1) / 2)) >? eps)%float = true ->
      exists e, bisection f x_0 x_1 eps max_its = Raise e).
Proof.
  intros Hcap.
  assert (forall r, newton_raphson kind f df x_0 eps max_its = Ok r ->
                    r = x_0) as HN.
  { intros r H. apply newton_raphson_returns in H.
    destruct H as (_ & k & Hk & -> & _).
    replace k with 0%nat by lia. reflexivity. }
  assert (forall r, bisection f x_0 x_1 eps max_its = Ok r ->
                    r = ((x_0 + x_1) / 2)%float) as HB.
  { intros r H. pose proof (bisection_ends_spec f eps max_its x_0 x_1) as E.
    rewrite H in E. remember (Ok r) as res eqn:Hres.
    destruct E as [G|a b m i e Hpass Hbody|a b m i a' b' m' i' Hpass Hbody G];
      try discriminate; injection Hres as <-; [reflexivity|].
    apply bisection_body_completes in Hbody.
    apply bisection_pass_counter in Hpass. lia. }
  split; [exact HN|]. split; [exact HB|]. split.
  - intros G.
    destruct (newton_raphson kind f df x_0 eps max_its) as [r|e] eqn:N.
    + pose proof (HN r eq_refl) as ->.
      apply newton_raphson_returns in N. destruct N as [N _]. congruence.
    + exists e. reflexivity.
  - intros G.
    destruct (bisection f x_0 x_1 eps max_its) as [r|e] eqn:B.
    + pose proof (HB r eq_refl) as ->.
      apply bisection_returns in B. congruence.
    + exists e. reflexivity.
Qed.

(** With [max_its = 0] on [x^2 - 2]: both solvers give up after one update
    or pass. *)
Lemma zero_cap_returns_start_witness :
  0 <= 0
  /\ newton_raphson python_float sq_minus_2 two_x 1 0x1p-17 0
     = Raise ConvergenceError
  /\ bisection sq_minus_2 0 2 0x1p-17 0 = Raise ConvergenceError
  /\ (forall r, newton_raphson python_float sq_minus_2 two_x 1 0x1p-17 0 = Ok r
                -> r = 1%float).
Proof.
  split; [lia|]. split; [vm_compute; reflexivity|].
  split; [vm_compute; reflexivity|].
  exact (proj1 (zero_cap_returns_start python_float sq_minus_2 two_x
                  1 2 0x1p-17 0 (Z.le_refl 0))).
Defined.

(** * The module's examples *)

(** Newton-Raphson and bisection on [x^2 - 2] reach the square root of 2. *)
Example newton_sqrt2 :
  newton_raphson python_float sq_minus_2 two_x 1 0x1p-17 20
  = Ok 0x1.6a0a0a0a0a0a1p+0%float.
Proof. vm_compute. reflexivity. Qed.

Example bisection_sqrt2 :
  bisection sq_minus_2 0 2 0x1p-17 20 = Ok 0x1.6a0ap+0%float.
Proof. vm_compute. reflexivity. Qed.
